(** * TaskForm: the task dialog's form state, validation and submit handler

    A shallow embedding of [src/components/TaskForm.tsx].  The component's
    eight [useState] cells become the record [State], its props the record
    [Props]; each handler is a function from the state before the event to
    the state after it, and the two callback props are recorded as a trace
    of [Call]s in the order the handler makes them. *)

From Stdlib Require Import String Ascii List Bool NArith ZArith QArith Lia.
Import ListNotations.

Local Open Scope string_scope.
Local Open Scope list_scope.

(** ** Strings

    A JavaScript string is a sequence of UTF-16 code units.  The model keeps
    the code units U+0000 to U+00FF, one [ascii] each (Latin-1); on that
    range [trim] and [toLowerCase] are exactly the functions below, and
    lower-casing never leaves the range. *)

Module Str.

(** WhiteSpace and LineTerminator code points below U+0100: TAB, LF, VT,
    FF, CR, SP and NBSP. *)
Definition isWhiteSpace (c : ascii) : bool :=
  let n := N_of_ascii c in
  ((9 <=? n) && (n <=? 13) || (n =? 32) || (n =? 160))%N.

(** Upper-case letters below U+0100: A-Z, and U+00C0 to U+00DE without the
    multiplication sign U+00D7.  Each has its lower-case form 32 above. *)
Definition isUpper (c : ascii) : bool :=
  let n := N_of_ascii c in
  ((65 <=? n) && (n <=? 90)
   || (192 <=? n) && (n <=? 222) && negb (n =? 215))%N.

Definition lowerChar (c : ascii) : ascii :=
  if isUpper c then ascii_of_N (N_of_ascii c + 32) else c.

Fixpoint toLowerCase (s : string) : string :=
  match s with
  | EmptyString => EmptyString
  | String c r => String (lowerChar c) (toLowerCase r)
  end.

Fixpoint trimStart (s : string) : string :=
  match s with
  | EmptyString => EmptyString
  | String c r => if isWhiteSpace c then trimStart r else s
  end.

Fixpoint trimEnd (s : string) : string :=
  match s with
  | EmptyString => EmptyString
  | String c r =>
      match trimEnd r with
      | EmptyString => if isWhiteSpace c then EmptyString else String c EmptyString
      | r' => String c r'
      end
  end.

Definition trim (s : string) : string := trimEnd (trimStart s).

(** Truthiness of a string: every string but the empty one. *)
Definition truthy (s : string) : bool :=
  match s with EmptyString => false | String _ _ => true end.

(** [xs.includes(x)] on an array of strings. *)
Definition includes (xs : list string) (x : string) : bool :=
  existsb (String.eqb x) xs.

End Str.

(** ** Numbers

    A JavaScript number is a finite value, one of the two infinities, or
    NaN.  The form only asks whether a number is finite and how it compares
    with zero, so a finite value is kept as the rational it denotes (the two
    zeros compare alike and are one value here). *)

Inductive number : Type :=
| Finite (q : Q)
| PosInfinity
| NegInfinity
| NaN.

Module Num.

Definition zero : number := Finite 0.
Definition one : number := Finite 1.

(** [Number.isFinite] *)
Definition isFinite (n : number) : bool :=
  match n with Finite _ => true | _ => false end.

(** [a <= b]: false as soon as either side is NaN. *)
Definition leb (a b : number) : bool :=
  match a, b with
  | NaN, _ | _, NaN => false
  | NegInfinity, _ => true
  | _, PosInfinity => true
  | Finite x, Finite y => Qle_bool x y
  | _, _ => false
  end.

(** [a < b]: false as soon as either side is NaN. *)
Definition ltb (a b : number) : bool :=
  match a, b with
  | NaN, _ | _, NaN => false
  | PosInfinity, _ => false
  | _, NegInfinity => false
  | Finite x, Finite y => negb (Qle_bool y x)
  | _, _ => true
  end.

Definition geb (a b : number) : bool := leb b a.
Definition gtb (a b : number) : bool := ltb b a.

End Num.

(** ** The task record and the payload *)

(** The members of [priorities] and [statuses] (lines 25-26). *)
Inductive Priority : Type := High | Medium | Low.
Inductive Status : Type := Todo | InProgress | Done.

(** Modelled from the spec: the [Task] type is imported from [@/types],
    which is not part of the sources; its fields are those of the spec's
    data model, with [notes] and [completedAt] optional. *)
Module Task.
Record t : Type := mk {
  id : string;
  title : string;
  revenue : number;
  timeTaken : number;
  priority : Priority;
  status : Status;
  notes : option string;
  createdAt : string;
  completedAt : option string
}.
End Task.

(** [Omit<Task, 'id'> & { id?: string }] *)
Module Payload.
Record t : Type := mk {
  title : string;
  revenue : number;
  timeTaken : number;
  priority : Priority;
  status : Status;
  notes : option string;
  createdAt : string;
  completedAt : option string;
  id : option string
}.
End Payload.

(** ** Props, state and callbacks *)

Record Props : Type := mkProps {
  open : bool;
  existingTitles : list string;
  initial : option Task.t
}.

(** The [useState] cells.  A cell of type [T | ''] is an [option T] whose
    [None] is the empty string; a cell of type [string | null] is an
    [option string] whose [None] is [null]. *)
Record State : Type := mkState {
  title : string;
  revenue : option number;
  timeTaken : option number;
  priority : option Priority;
  status : option Status;
  notes : string;
  revenueError : option string;
  timeError : option string
}.

Inductive Call : Type :=
| onSubmit (value : Payload.t)
| onClose.

Definition setTitle (v : string) (s : State) : State :=
  mkState v (revenue s) (timeTaken s) (priority s) (status s) (notes s)
          (revenueError s) (timeError s).

Definition setRevenue (v : option number) (s : State) : State :=
  mkState (title s) v (timeTaken s) (priority s) (status s) (notes s)
          (revenueError s) (timeError s).

Definition setTimeTaken (v : option number) (s : State) : State :=
  mkState (title s) (revenue s) v (priority s) (status s) (notes s)
          (revenueError s) (timeError s).

Definition setPriority (v : option Priority) (s : State) : State :=
  mkState (title s) (revenue s) (timeTaken s) v (status s) (notes s)
          (revenueError s) (timeError s).

Definition setStatus (v : option Status) (s : State) : State :=
  mkState (title s) (revenue s) (timeTaken s) (priority s) v (notes s)
          (revenueError s) (timeError s).

Definition setNotes (v : string) (s : State) : State :=
  mkState (title s) (revenue s) (timeTaken s) (priority s) (status s) v
          (revenueError s) (timeError s).

Definition setRevenueError (v : option string) (s : State) : State :=
  mkState (title s) (revenue s) (timeTaken s) (priority s) (status s) (notes s)
          v (timeError s).

Definition setTimeError (v : option string) (s : State) : State :=
  mkState (title s) (revenue s) (timeTaken s) (priority s) (status s) (notes s)
          (revenueError s) v.

(** The state of a freshly mounted component. *)
Definition initialState : State :=
  mkState "" None None None None "" None None.

(** ** The open effect (lines 40-59)

    [useEffect(..., [open, initial])]: run after a render in which [open] or
    [initial] changed. *)
Definition openEffect (p : Props) (s : State) : State :=
  if negb (open p) then s
  else
    match initial p with
    | Some i =>
        let s := setTitle (Task.title i) s in
        let s := setRevenue (Some (Task.revenue i)) s in
        let s := setTimeTaken (Some (Task.timeTaken i)) s in
        let s := setPriority (Some (Task.priority i)) s in
        let s := setStatus (Some (Task.status i)) s in
        setNotes (match Task.notes i with Some n => n | None => "" end) s
    | None =>
        let s := setTitle "" s in
        let s := setRevenue None s in
        let s := setTimeTaken None s in
        let s := setPriority None s in
        let s := setStatus None s in
        let s := setNotes "" s in
        let s := setRevenueError None s in
        setTimeError None s
    end.

(** ** Derived values (lines 61-74) *)

Definition duplicateTitle (p : Props) (s : State) : bool :=
  let current := Str.toLowerCase (Str.trim (title s)) in
  if negb (Str.truthy current) then false
  else
    let others :=
      match initial p with
      | Some i =>
          filter (fun t => negb (String.eqb (Str.toLowerCase t)
                                            (Str.toLowerCase (Task.title i))))
                 (existingTitles p)
      | None => existingTitles p
      end in
    Str.includes (map Str.toLowerCase others) current.

Definition isSome {A : Type} (o : option A) : bool :=
  match o with Some _ => true | None => false end.

Definition canSubmit (p : Props) (s : State) : bool :=
  Str.truthy (Str.trim (title s))
  && negb (duplicateTitle p s)
  && match revenue s with
     | Some r => Num.isFinite r && Num.geb r Num.zero
     | None => false
     end
  && match timeTaken s with
     | Some t => Num.isFinite t && Num.gtb t Num.zero
     | None => false
     end
  && isSome (priority s)
  && isSome (status s).

(** ** Change handlers of the numeric fields (lines 76-108)

    [Number] is the language's string-to-number conversion; the handlers are
    read for an arbitrary one. *)

Section ChangeHandlers.

Variable Number : string -> number.

Definition handleRevenueChange (v : string) (s : State) : State :=
  if String.eqb v "" then
    setRevenueError (Some "Revenue is required") (setRevenue None s)
  else
    let num := Number v in
    if negb (Num.isFinite num) || Num.ltb num Num.zero then
      setRevenueError (Some "Enter a valid non-negative number")
                      (setRevenue (Some num) s)
    else
      setRevenueError None (setRevenue (Some num) s).

Definition handleTimeChange (v : string) (s : State) : State :=
  if String.eqb v "" then
    setTimeError (Some "Time taken is required") (setTimeTaken None s)
  else
    let num := Number v in
    if negb (Num.isFinite num) || Num.leb num Num.zero then
      setTimeError (Some "Enter a positive number (> 0)")
                   (setTimeTaken (Some num) s)
    else
      setTimeError None (setTimeTaken (Some num) s).

End ChangeHandlers.

(** ** The submit handler (lines 110-150)

    [nowCreated] and [nowCompleted] are the values of the two
    [new Date().toISOString()] expressions, each used only where the code
    evaluates it. *)

Definition revNum (s : State) : number :=
  match revenue s with Some r => r | None => NaN end.

Definition timeNum (s : State) : number :=
  match timeTaken s with Some t => t | None => NaN end.

Definition basePayload (p : Props) (nowCreated nowCompleted : string)
    (s : State) : Payload.t :=
  let safeTime := if Num.gtb (timeNum s) Num.zero then timeNum s else Num.one in
  let createdAt :=
    match initial p with
    | Some i => Task.createdAt i
    | None => nowCreated
    end in
  let completedAt :=
    match status s with
    | Some Done =>
        Some match initial p with
             | Some i =>
                 match Task.completedAt i with
                 | Some c => c
                 | None => nowCompleted
                 end
             | None => nowCompleted
             end
    | _ => None
    end in
  Payload.mk
    (Str.trim (title s))
    (if Num.isFinite (revNum s) then revNum s else Num.zero)
    safeTime
    (match priority s with Some x => x | None => Medium end)
    (match status s with Some x => x | None => Todo end)
    (let n := Str.trim (notes s) in if Str.truthy n then Some n else None)
    createdAt
    completedAt
    (match initial p with
     | Some i => if Str.truthy (Task.id i) then Some (Task.id i) else None
     | None => None
     end).

Definition revenueInvalid (s : State) : bool :=
  negb (Num.isFinite (revNum s)) || Num.ltb (revNum s) Num.zero.

Definition timeInvalid (s : State) : bool :=
  negb (Num.isFinite (timeNum s)) || Num.leb (timeNum s) Num.zero.

Definition handleSubmit (p : Props) (nowCreated nowCompleted : string)
    (s : State) : State * list Call :=
  let s1 :=
    if revenueInvalid s
    then setRevenueError (Some "Enter a valid non-negative number") s
    else s in
  let s2 :=
    if timeInvalid s
    then setTimeError (Some "Enter a positive number (> 0)") s1
    else s1 in
  let valid := negb (revenueInvalid s) && negb (timeInvalid s) in
  if negb valid then (s2, [])
  else (s2, [onSubmit (basePayload p nowCreated nowCompleted s); onClose]).

(** The Cancel button. *)
Definition handleCancel (s : State) : State * list Call := (s, [onClose]).

(** ** Sample inputs *)

Module Sample.

Definition fin (z : Z) : number := Finite (inject_Z z).

Definition task (i t : string) (c : option string) : Task.t :=
  Task.mk i t (fin 10) (fin 2) High InProgress (Some "call back")
          "2024-01-01T00:00:00.000Z" c.

Definition filled (t : string) : State :=
  mkState t (Some (fin 5)) (Some (fin 3)) (Some Low) (Some Done) "  " None None.

(** A conversion that reads unsigned decimal digits and answers NaN for
    anything else; enough to run the change handlers on examples. *)
Fixpoint digits (acc : Z) (s : string) : option Z :=
  match s with
  | EmptyString => Some acc
  | String c r =>
      let n := Z.of_N (N_of_ascii c) in
      if ((48 <=? n) && (n <=? 57))%Z then digits (10 * acc + (n - 48)) r
      else None
  end.

Definition Number (s : string) : number :=
  match s with
  | String "-" r =>
      match digits 0 r with Some z => fin (- z) | None => NaN end
  | _ => match digits 0 s with Some z => fin z | None => NaN end
  end.

End Sample.

(** ** Vocabulary of the specification *)

(** "a finite number >= 0" and "a finite number > 0", for a numeric cell. *)
Definition finiteGe0 (o : option number) : Prop :=
  exists q, o = Some (Finite q) /\ (0 <= q)%Q.

Definition finiteGt0 (o : option number) : Prop :=
  exists q, o = Some (Finite q) /\ (0 < q)%Q.

(** Equal without regard to case. *)
Definition ciEq (a b : string) : Prop :=
  Str.toLowerCase a = Str.toLowerCase b.

(** An entry of [existingTitles] other than the title of the task being
    edited (any entry, when no task is being edited). *)
Definition otherTitle (p : Props) (t : string) : Prop :=
  In t (existingTitles p)
  /\ forall i, initial p = Some i -> ~ ciEq t (Task.title i).

(** The duplicate condition in the specification's words: the trimmed,
    lower-cased title equals, without regard to case, some other entry. *)
Definition duplicateAsStated (p : Props) (s : State) : Prop :=
  exists t, otherTitle p t /\ ciEq (Str.toLowerCase (Str.trim (title s))) t.

(** The calls of a handler run, and the payloads among them. *)
Definition calls (r : State * list Call) : list Call := snd r.

Definition emits (r : State * list Call) (v : Payload.t) : Prop :=
  In (onSubmit v) (calls r).

(** ** What the dialog renders (lines 152-218) *)

(** The dialog's heading and the label of the submit button. *)
Definition dialogTitle (p : Props) : string :=
  match initial p with Some _ => "Edit Task" | None => "Add Task" end.

Definition submitLabel (p : Props) : string :=
  match initial p with Some _ => "Save Changes" | None => "Add Task" end.

(** The title field: [error={!!title && duplicateTitle}] and its helper
    text. *)
Definition titleFieldError (p : Props) (s : State) : bool :=
  Str.truthy (title s) && duplicateTitle p s.

Definition titleHelperText (p : Props) (s : State) : string :=
  if duplicateTitle p s then "Duplicate title not allowed" else " ".

(** The numeric fields: [error={!!revenueError}] and
    [helperText={revenueError ?? ' '}], and the same for timeTaken. *)
Definition messageShown (e : option string) : bool :=
  match e with Some m => Str.truthy m | None => false end.

Definition helperText (e : option string) : string :=
  match e with Some m => m | None => " " end.

Definition revenueFieldError (s : State) : bool := messageShown (revenueError s).
Definition revenueHelperText (s : State) : string := helperText (revenueError s).
Definition timeFieldError (s : State) : bool := messageShown (timeError s).
Definition timeHelperText (s : State) : string := helperText (timeError s).

(** [disabled={!canSubmit}] on the submit button. *)
Definition submitDisabled (p : Props) (s : State) : bool := negb (canSubmit p s).

(** ** Events

    One constructor for each handler the JSX binds, and one for a run of the
    open effect.  [dispatch] is the handler bound to the event, under the
    props of the render that bound it.  A [SubmitClick] runs the handler
    whether or not the button is drawn disabled, so the states reached here
    include every state the rendered dialog reaches. *)

Inductive Event : Type :=
| TitleInput (v : string)
| RevenueInput (v : string)
| TimeInput (v : string)
| PrioritySelect (x : Priority)
| StatusSelect (x : Status)
| NotesInput (v : string)
| CancelClick
| SubmitClick (nowCreated nowCompleted : string)
| EffectRun.

Section Dispatch.

Variable Number : string -> number.

Definition dispatch (p : Props) (e : Event) (s : State) : State * list Call :=
  match e with
  | TitleInput v => (setTitle v s, [])
  | RevenueInput v => (handleRevenueChange Number v s, [])
  | TimeInput v => (handleTimeChange Number v s, [])
  | PrioritySelect x => (setPriority (Some x) s, [])
  | StatusSelect x => (setStatus (Some x) s, [])
  | NotesInput v => (setNotes v s, [])
  | CancelClick => handleCancel s
  | SubmitClick n1 n2 => handleSubmit p n1 n2 s
  | EffectRun => (openEffect p s, [])
  end.

(** The states the component can be in: the mounted state, and every state
    an event leads to, under whatever props the parent passes at the time. *)
Inductive reachable : State -> Prop :=
| reachable_mount : reachable initialState
| reachable_step (p : Props) (e : Event) (s : State) :
    reachable s -> reachable (fst (dispatch p e s)).

End Dispatch.

(** ** Tasks the form takes and gives back *)

Definition trimmed (s : string) : Prop := Str.trim s = s.

(** A string that does not begin with white space. *)
Definition startsClean (s : string) : Prop :=
  match s with
  | EmptyString => True
  | String c _ => Str.isWhiteSpace c = false
  end.

(** A task as the form itself would have produced it. *)
Definition taskValid (i : Task.t) : Prop :=
  trimmed (Task.title i)
  /\ finiteGe0 (Some (Task.revenue i))
  /\ finiteGt0 (Some (Task.timeTaken i))
  /\ Task.id i <> ""
  /\ (forall n, Task.notes i = Some n -> trimmed n /\ n <> "")
  /\ (Task.completedAt i <> None <-> Task.status i = Done).

(** The payload that says of a task what the task says of itself. *)
Definition payloadOfTask (i : Task.t) : Payload.t :=
  Payload.mk (Task.title i) (Task.revenue i) (Task.timeTaken i)
             (Task.priority i) (Task.status i) (Task.notes i)
             (Task.createdAt i) (Task.completedAt i) (Some (Task.id i)).

(** The task a caller stores for a payload, under the id [k]. *)
Definition taskOfPayload (k : string) (v : Payload.t) : Task.t :=
  Task.mk k (Payload.title v) (Payload.revenue v) (Payload.timeTaken v)
          (Payload.priority v) (Payload.status v) (Payload.notes v)
          (Payload.createdAt v) (Payload.completedAt v).

(** ** Examples *)

Example trim_ex : Str.trim "  Fix  bug " = "Fix  bug".
Proof. reflexivity. Qed.

Example lower_ex : Str.toLowerCase "Write REPORT" = "write report".
Proof. reflexivity. Qed.

Example dup_ex :
  duplicateTitle (mkProps true ["Alpha"; "Beta"] None) (Sample.filled " beta ") = true.
Proof. reflexivity. Qed.

Example dup_edit_ex :
  duplicateTitle (mkProps true ["Alpha"; "Beta"] (Some (Sample.task "7" "BETA" None)))
                 (Sample.filled " beta ") = false.
Proof. reflexivity. Qed.

Example submit_ex :
  snd (handleSubmit (mkProps true [] None) "t1" "t2" (Sample.filled " a "))
  = [onSubmit (Payload.mk "a" (Sample.fin 5) (Sample.fin 3) Low Done None "t1" (Some "t2") None);
     onClose].
Proof. reflexivity. Qed.

Example submit_blank_ex :
  handleSubmit (mkProps true [] None) "t1" "t2" initialState
  = (mkState "" None None None None ""
             (Some "Enter a valid non-negative number")
             (Some "Enter a positive number (> 0)"), []).
Proof. reflexivity. Qed.

Example revenue_change_ex :
  revenueError (handleRevenueChange Sample.Number "-4" initialState)
  = Some "Enter a valid non-negative number".
Proof. reflexivity. Qed.

Example time_change_ex :
  timeError (handleTimeChange Sample.Number "0" initialState)
  = Some "Enter a positive number (> 0)"
  /\ timeError (handleTimeChange Sample.Number "12" initialState) = None.
Proof. split; reflexivity. Qed.

(** ** Strings: basic facts *)

Lemma lowerChar_idem (c : ascii) : Str.lowerChar (Str.lowerChar c) = Str.lowerChar c.
Proof. destruct c as [[] [] [] [] [] [] [] []]; reflexivity. Qed.

Lemma toLowerCase_idem (s : string) :
  Str.toLowerCase (Str.toLowerCase s) = Str.toLowerCase s.
Proof.
  induction s as [|c r IH]; simpl; [reflexivity|].
  now rewrite lowerChar_idem, IH.
Qed.

Lemma toLowerCase_empty (s : string) : Str.toLowerCase s = "" <-> s = "".
Proof. destruct s; simpl; split; intro H; (reflexivity || discriminate H). Qed.

Lemma truthy_true (s : string) : Str.truthy s = true <-> s <> "".
Proof. destruct s; simpl; split; intro H; congruence. Qed.

Lemma truthy_false (s : string) : Str.truthy s = false <-> s = "".
Proof. destruct s; simpl; split; intro H; congruence. Qed.

Lemma includes_In (xs : list string) (x : string) :
  Str.includes xs x = true <-> In x xs.
Proof.
  unfold Str.includes. rewrite existsb_exists. split.
  - intros [y [Hy E]]. apply String.eqb_eq in E. now subst.
  - intro H. exists x. split; [assumption | apply String.eqb_refl].
Qed.

(** ** Numbers: the tests of the code against the specification's words *)

Lemma geb_zero (q : Q) : Num.geb (Finite q) Num.zero = true <-> (0 <= q)%Q.
Proof. unfold Num.geb, Num.zero; simpl. apply Qle_bool_iff. Qed.

Lemma gtb_zero (q : Q) : Num.gtb (Finite q) Num.zero = true <-> (0 < q)%Q.
Proof.
  unfold Num.gtb, Num.zero; simpl. rewrite negb_true_iff.
  split.
  - intro H. apply Qnot_le_lt. intro L. apply Qle_bool_iff in L. congruence.
  - intro H. destruct (Qle_bool q 0) eqn:E; [|reflexivity].
    apply Qle_bool_iff in E. exfalso. exact (Qlt_not_le _ _ H E).
Qed.

Lemma ltb_zero (q : Q) : Num.ltb (Finite q) Num.zero = false <-> (0 <= q)%Q.
Proof.
  unfold Num.zero; simpl. rewrite negb_false_iff. apply Qle_bool_iff.
Qed.

Lemma leb_zero (q : Q) : Num.leb (Finite q) Num.zero = false <-> (0 < q)%Q.
Proof.
  rewrite <- gtb_zero. unfold Num.gtb, Num.zero; simpl.
  now rewrite negb_true_iff.
Qed.

Lemma revenueInvalid_false (s : State) :
  revenueInvalid s = false <-> finiteGe0 (revenue s).
Proof.
  unfold revenueInvalid, revNum, finiteGe0.
  destruct (revenue s) as [[q| | |]|]; simpl;
    try (split; [discriminate | intros [q' [E _]]; discriminate E]).
  rewrite (ltb_zero q). split.
  - intro H. exists q. now split.
  - intros [q' [E H]]. now inversion E; subst.
Qed.

Lemma timeInvalid_false (s : State) :
  timeInvalid s = false <-> finiteGt0 (timeTaken s).
Proof.
  unfold timeInvalid, timeNum, finiteGt0.
  destruct (timeTaken s) as [[q| | |]|]; simpl;
    try (split; [discriminate | intros [q' [E _]]; discriminate E]).
  rewrite (leb_zero q). split.
  - intro H. exists q. now split.
  - intros [q' [E H]]. now inversion E; subst.
Qed.

Lemma revenueInvalid_true (s : State) :
  revenueInvalid s = true <-> ~ finiteGe0 (revenue s).
Proof.
  rewrite <- revenueInvalid_false. destruct (revenueInvalid s); split; congruence.
Qed.

Lemma timeInvalid_true (s : State) :
  timeInvalid s = true <-> ~ finiteGt0 (timeTaken s).
Proof.
  rewrite <- timeInvalid_false. destruct (timeInvalid s); split; congruence.
Qed.

(** ** The submit handler: its two outcomes *)

Lemma handleSubmit_valid (p : Props) (n1 n2 : string) (s : State) :
  finiteGe0 (revenue s) -> finiteGt0 (timeTaken s) ->
  handleSubmit p n1 n2 s = (s, [onSubmit (basePayload p n1 n2 s); onClose]).
Proof.
  intros Hr Ht. apply revenueInvalid_false in Hr. apply timeInvalid_false in Ht.
  unfold handleSubmit. now rewrite Hr, Ht.
Qed.

Lemma handleSubmit_invalid (p : Props) (n1 n2 : string) (s : State) :
  ~ (finiteGe0 (revenue s) /\ finiteGt0 (timeTaken s)) ->
  calls (handleSubmit p n1 n2 s) = [].
Proof.
  intro H. unfold handleSubmit, calls.
  destruct (revenueInvalid s) eqn:Er; [reflexivity|].
  destruct (timeInvalid s) eqn:Et; [reflexivity|].
  exfalso. apply H. split.
  - now apply revenueInvalid_false.
  - now apply timeInvalid_false.
Qed.

Lemma valid_dec (s : State) :
  (finiteGe0 (revenue s) /\ finiteGt0 (timeTaken s))
  \/ ~ (finiteGe0 (revenue s) /\ finiteGt0 (timeTaken s)).
Proof.
  destruct (revenueInvalid s) eqn:Er.
  - right. intros [H _]. apply revenueInvalid_false in H. congruence.
  - destruct (timeInvalid s) eqn:Et.
    + right. intros [_ H]. apply timeInvalid_false in H. congruence.
    + left. split; [now apply revenueInvalid_false | now apply timeInvalid_false].
Qed.

Lemma emits_inv (p : Props) (n1 n2 : string) (s : State) (v : Payload.t) :
  emits (handleSubmit p n1 n2 s) v ->
  v = basePayload p n1 n2 s
  /\ finiteGe0 (revenue s) /\ finiteGt0 (timeTaken s).
Proof.
  unfold emits. intro H.
  destruct (valid_dec s) as [[Hr Ht] | Hn].
  - rewrite (handleSubmit_valid p n1 n2 s Hr Ht) in H. simpl in H.
    destruct H as [E | [E | []]]; [|discriminate E].
    inversion E. auto.
  - rewrite (handleSubmit_invalid p n1 n2 s Hn) in H. destruct H.
Qed.

Lemma handleSubmit_sets_revenueError (p : Props) (n1 n2 : string) (s : State) :
  ~ finiteGe0 (revenue s) ->
  revenueError (fst (handleSubmit p n1 n2 s))
  = Some "Enter a valid non-negative number".
Proof.
  intro H. apply revenueInvalid_true in H. unfold handleSubmit. rewrite H.
  simpl. destruct (timeInvalid s); reflexivity.
Qed.

Lemma handleSubmit_sets_timeError (p : Props) (n1 n2 : string) (s : State) :
  ~ finiteGt0 (timeTaken s) ->
  timeError (fst (handleSubmit p n1 n2 s))
  = Some "Enter a positive number (> 0)".
Proof.
  intro H. apply timeInvalid_true in H. unfold handleSubmit. rewrite H.
  rewrite andb_false_r. reflexivity.
Qed.

(** C2.  In every state the submit handler calls [onSubmit] once and then
    [onClose] once exactly when revenue is a finite number >= 0 and timeTaken
    is a finite number > 0.  In every other state it makes no call at all and
    leaves the inline message of each offending field set.  The handler is a
    total function of the state: no run of it ends in an exception. *)
Theorem handleSubmit_calls_iff_numeric_valid
    (p : Props) (n1 n2 : string) (s : State) :
  ((exists v, calls (handleSubmit p n1 n2 s) = [onSubmit v; onClose])
   <-> finiteGe0 (revenue s) /\ finiteGt0 (timeTaken s))
  /\ (~ (finiteGe0 (revenue s) /\ finiteGt0 (timeTaken s)) ->
      calls (handleSubmit p n1 n2 s) = []
      /\ (~ finiteGe0 (revenue s) ->
          revenueError (fst (handleSubmit p n1 n2 s))
          = Some "Enter a valid non-negative number")
      /\ (~ finiteGt0 (timeTaken s) ->
          timeError (fst (handleSubmit p n1 n2 s))
          = Some "Enter a positive number (> 0)")).
Proof.
  split; [split|].
  - intros [v E]. destruct (valid_dec s) as [H | H]; [exact H|].
    rewrite (handleSubmit_invalid p n1 n2 s H) in E. discriminate E.
  - intros [Hr Ht]. exists (basePayload p n1 n2 s).
    now rewrite (handleSubmit_valid p n1 n2 s Hr Ht).
  - intro H. split; [now apply handleSubmit_invalid|]. split.
    + apply handleSubmit_sets_revenueError.
    + apply handleSubmit_sets_timeError.
Qed.

Lemma handleSubmit_calls_iff_numeric_valid_witness :
  calls (handleSubmit (mkProps true [] None) "t1" "t2" initialState) = []
  /\ revenueError (fst (handleSubmit (mkProps true [] None) "t1" "t2" initialState))
     = Some "Enter a valid non-negative number"
  /\ timeError (fst (handleSubmit (mkProps true [] None) "t1" "t2" initialState))
     = Some "Enter a positive number (> 0)".
Proof.
  destruct (handleSubmit_calls_iff_numeric_valid
              (mkProps true [] None) "t1" "t2" initialState) as [_ H].
  assert (Hr : ~ finiteGe0 (revenue initialState))
    by (intros [q [E _]]; discriminate E).
  assert (Ht : ~ finiteGt0 (timeTaken initialState))
    by (intros [q [E _]]; discriminate E).
  destruct H as [H0 [H1 H2]].
  - intros [A _]. exact (Hr A).
  - split; [exact H0|]. split; [exact (H1 Hr) | exact (H2 Ht)].
Defined.

(** C3.  A payload the submit handler emits has [completedAt] defined
    exactly when the status cell is 'Done'.  Under 'Done' it is the initial
    task's [completedAt] when the task has one, and the current timestamp
    otherwise; under any other status it is undefined, whatever the initial
    task holds. *)
Theorem payload_completedAt
    (p : Props) (n1 n2 : string) (s : State) (v : Payload.t) :
  emits (handleSubmit p n1 n2 s) v ->
  (Payload.completedAt v <> None <-> status s = Some Done)
  /\ (status s = Some Done ->
      (forall i c, initial p = Some i -> Task.completedAt i = Some c ->
                   Payload.completedAt v = Some c)
      /\ (forall i, initial p = Some i -> Task.completedAt i = None ->
                    Payload.completedAt v = Some n2)
      /\ (initial p = None -> Payload.completedAt v = Some n2))
  /\ (status s <> Some Done -> Payload.completedAt v = None).
Proof.
  intro H. apply emits_inv in H. destruct H as [-> _].
  unfold basePayload; simpl.
  destruct (status s) as [[| |]|]; (split; [split; intro H; congruence|]);
    split; try congruence; intros _; repeat split; intros; 
    repeat match goal with
           | E : initial p = _ |- _ => rewrite E
           | E : Task.completedAt _ = _ |- _ => rewrite E
           end; reflexivity.
Qed.

Lemma payload_completedAt_witness :
  Payload.completedAt
    (basePayload (mkProps true [] None) "t1" "t2" (Sample.filled "a"))
  = Some "t2".
Proof.
  destruct (payload_completedAt (mkProps true [] None) "t1" "t2"
              (Sample.filled "a")
              (basePayload (mkProps true [] None) "t1" "t2" (Sample.filled "a")))
    as [_ [H _]].
  - left. reflexivity.
  - destruct (H eq_refl) as [_ [_ H3]]. exact (H3 eq_refl).
Defined.

(** C4, as stated, fails on the id: the handler attaches [initial.id] only
    when it is truthy, so editing a task whose id is the empty string emits a
    payload that carries no id. *)
Lemma payload_id_missing_on_edit :
  let p := mkProps true [] (Some (Sample.task "" "Old" None)) in
  exists v,
    emits (handleSubmit p "t1" "t2" (Sample.filled "New")) v
    /\ initial p <> None
    /\ Payload.id v = None.
Proof.
  simpl. eexists. split; [left; reflexivity|].
  split; [discriminate | reflexivity].
Qed.

(** C4, amended.  A payload the submit handler emits has: the trimmed title;
    the revenue cell's number, with 0 in place of a non-finite one; the
    timeTaken cell's number, with 1 in place of a non-positive one (and in
    an emitting state both cells pass through unchanged); 'Medium'
    for an unset priority and 'Todo' for an unset status; the trimmed notes,
    or undefined when they trim to nothing; and the initial task's id exactly
    when a task is being edited and its id is not the empty string. *)
Theorem payload_fields
    (p : Props) (n1 n2 : string) (s : State) (v : Payload.t) :
  emits (handleSubmit p n1 n2 s) v ->
  Payload.title v = Str.trim (title s)
  /\ Payload.revenue v
     = (if Num.isFinite (revNum s) then revNum s else Num.zero)
  /\ revenue s = Some (Payload.revenue v)
  /\ Payload.timeTaken v
     = (if Num.gtb (timeNum s) Num.zero then timeNum s else Num.one)
  /\ timeTaken s = Some (Payload.timeTaken v)
  /\ (forall x, priority s = Some x -> Payload.priority v = x)
  /\ (priority s = None -> Payload.priority v = Medium)
  /\ (forall x, status s = Some x -> Payload.status v = x)
  /\ (status s = None -> Payload.status v = Todo)
  /\ (Str.trim (notes s) <> "" -> Payload.notes v = Some (Str.trim (notes s)))
  /\ (Str.trim (notes s) = "" -> Payload.notes v = None)
  /\ (forall i, Payload.id v = Some i
                <-> exists t, initial p = Some t /\ Task.id t = i /\ i <> "").
Proof.
  intro H. apply emits_inv in H. destruct H as [-> [[qr [Er Hr]] [qt [Et Ht]]]].
  unfold basePayload, revNum, timeNum; simpl. rewrite Er, Et; simpl.
  assert (G : Num.gtb (Finite qt) Num.zero = true) by now apply gtb_zero.
  unfold Num.gtb, Num.zero in G; simpl in G. rewrite G.
  repeat split; try reflexivity.
  - intros x E. now rewrite E.
  - intros E. now rewrite E.
  - intros x E. now rewrite E.
  - intros E. now rewrite E.
  - intro N. apply truthy_true in N. now rewrite N.
  - intro N. now rewrite N.
  - destruct (initial p) as [t|]; [|discriminate].
    destruct (Str.truthy (Task.id t)) eqn:T; [|discriminate].
    intro E. inversion E; subst. exists t. apply truthy_true in T. auto.
  - intros [t [E [<- N]]]. rewrite E. apply truthy_true in N. now rewrite N.
Qed.

Lemma payload_fields_witness :
  let p := mkProps true [] (Some (Sample.task "42" "Old" None)) in
  let v := basePayload p "t1" "t2" (Sample.filled " New ") in
  emits (handleSubmit p "t1" "t2" (Sample.filled " New ")) v
  /\ Payload.title v = "New"
  /\ Payload.notes v = None.
Proof.
  simpl.
  assert (E : emits (handleSubmit (mkProps true [] (Some (Sample.task "42" "Old" None)))
                       "t1" "t2" (Sample.filled " New "))
                    (basePayload (mkProps true [] (Some (Sample.task "42" "Old" None)))
                       "t1" "t2" (Sample.filled " New ")))
    by (left; reflexivity).
  split; [exact E|].
  destruct (payload_fields _ _ _ _ _ E)
    as [H1 [_ [_ [_ [_ [_ [_ [_ [_ [_ [H2 _]]]]]]]]]]].
  split; [exact H1 | exact (H2 eq_refl)].
Defined.

(** C6.  A payload the submit handler emits carries the initial task's
    [createdAt] unchanged when a task is being edited, and the current
    timestamp when a task is being created. *)
Theorem payload_createdAt
    (p : Props) (n1 n2 : string) (s : State) (v : Payload.t) :
  emits (handleSubmit p n1 n2 s) v ->
  (forall i, initial p = Some i -> Payload.createdAt v = Task.createdAt i)
  /\ (initial p = None -> Payload.createdAt v = n1).
Proof.
  intro H. apply emits_inv in H. destruct H as [-> _].
  unfold basePayload; simpl.
  split; [intros i E | intro E]; now rewrite E.
Qed.

Lemma payload_createdAt_witness :
  let p := mkProps true ["Old"] (Some (Sample.task "42" "Old" None)) in
  let v := basePayload p "t1" "t2" (Sample.filled "New") in
  emits (handleSubmit p "t1" "t2" (Sample.filled "New")) v
  /\ Payload.createdAt v = "2024-01-01T00:00:00.000Z".
Proof.
  simpl.
  assert (E : emits (handleSubmit (mkProps true ["Old"] (Some (Sample.task "42" "Old" None)))
                       "t1" "t2" (Sample.filled "New"))
                    (basePayload (mkProps true ["Old"] (Some (Sample.task "42" "Old" None)))
                       "t1" "t2" (Sample.filled "New")))
    by (left; reflexivity).
  split; [exact E|].
  destruct (payload_createdAt _ _ _ _ _ E) as [H _].
  exact (H _ eq_refl).
Defined.

(** ** The derived values *)

Lemma revenue_ok_iff (o : option number) :
  match o with
  | Some r => Num.isFinite r && Num.geb r Num.zero
  | None => false
  end = true <-> finiteGe0 o.
Proof.
  unfold finiteGe0.
  destruct o as [[q| | |]|]; simpl;
    try (split; [discriminate | intros [q' [E _]]; discriminate E]).
  change (Qle_bool 0 q) with (Num.geb (Finite q) Num.zero).
  rewrite geb_zero. split.
  - intro H. exists q. now split.
  - intros [q' [E H]]. now inversion E; subst.
Qed.

Lemma time_ok_iff (o : option number) :
  match o with
  | Some t => Num.isFinite t && Num.gtb t Num.zero
  | None => false
  end = true <-> finiteGt0 o.
Proof.
  unfold finiteGt0.
  destruct o as [[q| | |]|]; simpl;
    try (split; [discriminate | intros [q' [E _]]; discriminate E]).
  change (negb (Qle_bool q 0)) with (Num.gtb (Finite q) Num.zero).
  rewrite gtb_zero. split.
  - intro H. exists q. now split.
  - intros [q' [E H]]. now inversion E; subst.
Qed.

Lemma isSome_true {A : Type} (o : option A) : isSome o = true <-> o <> None.
Proof. destruct o; simpl; split; intro H; congruence. Qed.

(** The entries the duplicate check compares against: the source's
    [others]. *)
Lemma others_In (p : Props) (t : string) :
  In t match initial p with
       | Some i =>
           filter (fun t => negb (String.eqb (Str.toLowerCase t)
                                             (Str.toLowerCase (Task.title i))))
                  (existingTitles p)
       | None => existingTitles p
       end
  <-> otherTitle p t.
Proof.
  unfold otherTitle, ciEq. destruct (initial p) as [i|].
  - rewrite filter_In, negb_true_iff. split.
    + intros [H N]. split; [exact H|].
      intros i' E. inversion E; subst i'. intro Q.
      apply String.eqb_eq in Q. congruence.
    + intros [H N]. split; [exact H|].
      destruct (String.eqb _ _) eqn:Q; [|reflexivity].
      apply String.eqb_eq in Q. exfalso. exact (N i eq_refl Q).
  - split; [intro H; split; [exact H | discriminate] | now intros [H _]].
Qed.

Lemma duplicateTitle_true_iff (p : Props) (s : State) :
  duplicateTitle p s = true
  <-> Str.trim (title s) <> "" /\ duplicateAsStated p s.
Proof.
  unfold duplicateTitle, duplicateAsStated, ciEq.
  rewrite toLowerCase_idem.
  destruct (Str.truthy (Str.toLowerCase (Str.trim (title s)))) eqn:T; simpl.
  - apply truthy_true in T. rewrite toLowerCase_empty in T.
    rewrite includes_In, in_map_iff. split.
    + intros [t [E H]]. split; [exact T|]. exists t.
      split; [now apply others_In | now symmetry].
    + intros [_ [t [H E]]]. exists t.
      split; [now symmetry | now apply others_In].
  - apply truthy_false in T. rewrite toLowerCase_empty in T.
    split; [discriminate | intros [N _]; contradiction].
Qed.

(** C1, as stated, fails on a blank title: the check answers false before
    it looks at the list, also when the list holds the empty string. *)
Lemma duplicateTitle_blank_not_as_stated :
  ~ (duplicateTitle (mkProps true [""] None) initialState = true
     <-> duplicateAsStated (mkProps true [""] None) initialState).
Proof.
  intros [_ H].
  assert (D : duplicateAsStated (mkProps true [""] None) initialState).
  { exists "". split; [split; [left; reflexivity | discriminate] | reflexivity]. }
  specialize (H D). discriminate H.
Qed.

(** C1, amended.  The duplicate-title flag is true exactly when the trimmed
    title is not empty and, lower-cased, equals without regard to case some
    entry of [existingTitles] other than the title of the task being edited;
    and whenever the flag is true, submission is disabled. *)
Theorem duplicateTitle_spec (p : Props) (s : State) :
  (duplicateTitle p s = true
   <-> Str.trim (title s) <> "" /\ duplicateAsStated p s)
  /\ (duplicateTitle p s = true -> canSubmit p s = false).
Proof.
  split; [apply duplicateTitle_true_iff|].
  intro D. unfold canSubmit. rewrite D. simpl.
  now rewrite andb_false_r.
Qed.

Lemma duplicateTitle_spec_witness :
  duplicateTitle (mkProps true ["Alpha"; "Beta"] None) (Sample.filled " beta ") = true
  /\ canSubmit (mkProps true ["Alpha"; "Beta"] None) (Sample.filled " beta ") = false.
Proof.
  split; [reflexivity|].
  apply (proj2 (duplicateTitle_spec (mkProps true ["Alpha"; "Beta"] None)
                                    (Sample.filled " beta "))).
  reflexivity.
Defined.

(** C5.  Submission is enabled exactly when the trimmed title is not empty,
    the duplicate-title flag is false, revenue is a finite number >= 0,
    timeTaken is a finite number > 0, and priority and status are both
    selected. *)
Theorem canSubmit_iff (p : Props) (s : State) :
  canSubmit p s = true
  <-> Str.trim (title s) <> ""
      /\ duplicateTitle p s = false
      /\ finiteGe0 (revenue s)
      /\ finiteGt0 (timeTaken s)
      /\ priority s <> None
      /\ status s <> None.
Proof.
  unfold canSubmit.
  rewrite !andb_true_iff, truthy_true, negb_true_iff,
    revenue_ok_iff, time_ok_iff, !isSome_true.
  tauto.
Qed.

(** C9.  The submit handler looks at the two numeric cells only: whenever
    revenue is a finite number >= 0 and timeTaken is a finite number > 0 it
    emits a payload and then calls [onClose], whatever the title, the
    duplicate flag, the priority and the status are.  So a run of the handler
    that does not go through the disabled button can emit a payload with an
    empty title, or with a duplicate one. *)
Theorem handleSubmit_ignores_canSubmit :
  (forall p n1 n2 s,
     finiteGe0 (revenue s) -> finiteGt0 (timeTaken s) ->
     exists v,
       handleSubmit p n1 n2 s = (s, [onSubmit v; onClose])
       /\ Payload.title v = Str.trim (title s))
  /\ (exists p n1 n2 s v,
        canSubmit p s = false /\ Str.trim (title s) = ""
        /\ priority s = None /\ status s = None
        /\ calls (handleSubmit p n1 n2 s) = [onSubmit v; onClose]
        /\ Payload.title v = "")
  /\ (exists p n1 n2 s v,
        canSubmit p s = false /\ duplicateTitle p s = true
        /\ calls (handleSubmit p n1 n2 s) = [onSubmit v; onClose]
        /\ In (Payload.title v) (existingTitles p)).
Proof.
  split; [|split].
  - intros p n1 n2 s Hr Ht. exists (basePayload p n1 n2 s).
    split; [now apply handleSubmit_valid | reflexivity].
  - exists (mkProps true [] None), "t1", "t2",
      (mkState "  " (Some (Sample.fin 0)) (Some (Sample.fin 1)) None None "" None None).
    eexists. repeat split.
  - exists (mkProps true ["Alpha"] None), "t1", "t2", (Sample.filled "Alpha ").
    eexists. repeat split. left. reflexivity.
Qed.

Lemma handleSubmit_ignores_canSubmit_witness :
  finiteGe0 (revenue (setTitle "" (Sample.filled "x")))
  /\ finiteGt0 (timeTaken (setTitle "" (Sample.filled "x")))
  /\ exists v,
       handleSubmit (mkProps true [] None) "t1" "t2" (setTitle "" (Sample.filled "x"))
       = (setTitle "" (Sample.filled "x"), [onSubmit v; onClose])
       /\ Payload.title v = Str.trim (title (setTitle "" (Sample.filled "x"))).
Proof.
  assert (Hr : finiteGe0 (revenue (setTitle "" (Sample.filled "x")))).
  { exists (inject_Z 5). split; [reflexivity | discriminate]. }
  assert (Ht : finiteGt0 (timeTaken (setTitle "" (Sample.filled "x")))).
  { exists (inject_Z 3). split; reflexivity. }
  split; [exact Hr|]. split; [exact Ht|].
  exact (proj1 handleSubmit_ignores_canSubmit
               (mkProps true [] None) "t1" "t2" _ Hr Ht).
Defined.

(** ** The change handlers and the open effect *)

(** C7.  For every input string [v], the revenue handler leaves a message in
    [revenueError] exactly when [v] is empty, [Number v] is not finite, or
    [Number v < 0], and leaves [null] there otherwise; the timeTaken handler
    does the same for [timeError] with [Number v <= 0]. *)
Theorem change_handlers_error
    (Number : string -> number) (v : string) (s : State) :
  (revenueError (handleRevenueChange Number v s) <> None
   <-> v = "" \/ Num.isFinite (Number v) = false
       \/ Num.ltb (Number v) Num.zero = true)
  /\ (revenueError (handleRevenueChange Number v s) = None
      <-> ~ (v = "" \/ Num.isFinite (Number v) = false
             \/ Num.ltb (Number v) Num.zero = true))
  /\ (timeError (handleTimeChange Number v s) <> None
      <-> v = "" \/ Num.isFinite (Number v) = false
          \/ Num.leb (Number v) Num.zero = true)
  /\ (timeError (handleTimeChange Number v s) = None
      <-> ~ (v = "" \/ Num.isFinite (Number v) = false
             \/ Num.leb (Number v) Num.zero = true)).
Proof.
  unfold handleRevenueChange, handleTimeChange.
  destruct (String.eqb v "") eqn:E.
  - apply String.eqb_eq in E. simpl.
    repeat split; intro H; try (now left); try discriminate;
      exfalso; apply H; now left.
  - apply String.eqb_neq in E.
    destruct (Num.isFinite (Number v)); simpl;
      destruct (Num.ltb (Number v) Num.zero);
      destruct (Num.leb (Number v) Num.zero); simpl;
      (split; [|split; [|split]]); split; intro H;
      solve [ discriminate H
            | congruence
            | intuition congruence
            | now (right; left)
            | now (right; right) ].
Qed.

Lemma change_handlers_error_witness :
  revenueError (handleRevenueChange Sample.Number "-4" initialState) <> None
  /\ timeError (handleTimeChange Sample.Number "12" initialState) = None.
Proof.
  destruct (change_handlers_error Sample.Number "-4" initialState) as [[_ H1] _].
  destruct (change_handlers_error Sample.Number "12" initialState)
    as [_ [_ [_ [_ H2]]]].
  split.
  - apply H1. right. right. reflexivity.
  - apply H2. intros [E | [E | E]]; discriminate E.
Defined.

(** C8.  When the effect runs with the dialog open and no initial task, it
    resets title, revenue, timeTaken, priority, status and notes to their
    blank values and sets both numeric error messages to [null]. *)
Theorem openEffect_create (p : Props) (s : State) :
  open p = true -> initial p = None ->
  title (openEffect p s) = ""
  /\ revenue (openEffect p s) = None
  /\ timeTaken (openEffect p s) = None
  /\ priority (openEffect p s) = None
  /\ status (openEffect p s) = None
  /\ notes (openEffect p s) = ""
  /\ revenueError (openEffect p s) = None
  /\ timeError (openEffect p s) = None.
Proof.
  intros Ho Hi. unfold openEffect. rewrite Ho, Hi. simpl.
  repeat split.
Qed.

Lemma openEffect_create_witness :
  openEffect (mkProps true ["Alpha"] None)
             (fst (handleSubmit (mkProps true ["Alpha"] None) "t1" "t2"
                                (setTitle "Alpha" initialState)))
  = initialState.
Proof.
  destruct (openEffect_create (mkProps true ["Alpha"] None)
              (fst (handleSubmit (mkProps true ["Alpha"] None) "t1" "t2"
                                 (setTitle "Alpha" initialState)))
              eq_refl eq_refl)
    as [H1 [H2 [H3 [H4 [H5 [H6 [H7 H8]]]]]]].
  destruct (openEffect _ _) as [a b c d e f g h]. simpl in *.
  now subst.
Defined.

(** C10.  When the effect runs with the dialog open and an initial task, it
    sets title, revenue, timeTaken, priority, status and notes from that task
    and leaves [revenueError] and [timeError] as they were: messages set
    before the dialog opens for an edit are still there after it. *)
Theorem openEffect_edit (p : Props) (i : Task.t) (s : State) :
  open p = true -> initial p = Some i ->
  title (openEffect p s) = Task.title i
  /\ revenue (openEffect p s) = Some (Task.revenue i)
  /\ timeTaken (openEffect p s) = Some (Task.timeTaken i)
  /\ priority (openEffect p s) = Some (Task.priority i)
  /\ status (openEffect p s) = Some (Task.status i)
  /\ notes (openEffect p s)
     = match Task.notes i with Some n => n | None => "" end
  /\ revenueError (openEffect p s) = revenueError s
  /\ timeError (openEffect p s) = timeError s.
Proof.
  intros Ho Hi. unfold openEffect. rewrite Ho, Hi. simpl.
  repeat split.
Qed.

Lemma openEffect_edit_witness :
  let p := mkProps true ["Old"] (Some (Sample.task "42" "Old" None)) in
  let s := fst (handleSubmit (mkProps true ["Old"] None) "t1" "t2" initialState) in
  revenueError (openEffect p s) = Some "Enter a valid non-negative number"
  /\ timeError (openEffect p s) = Some "Enter a positive number (> 0)".
Proof.
  intros p s.
  destruct (openEffect_edit p (Sample.task "42" "Old" None) s eq_refl eq_refl)
    as [_ [_ [_ [_ [_ [_ [H7 H8]]]]]]].
  split; [rewrite H7 | rewrite H8]; reflexivity.
Defined.

(** ** Strings: trimming and lower-casing together *)

Lemma isWhiteSpace_lowerChar (c : ascii) :
  Str.isWhiteSpace (Str.lowerChar c) = Str.isWhiteSpace c.
Proof. destruct c as [[] [] [] [] [] [] [] []]; reflexivity. Qed.

Lemma trimStart_toLowerCase (s : string) :
  Str.toLowerCase (Str.trimStart s) = Str.trimStart (Str.toLowerCase s).
Proof.
  induction s as [|c r IH]; simpl; [reflexivity|].
  rewrite isWhiteSpace_lowerChar.
  destruct (Str.isWhiteSpace c); [exact IH | reflexivity].
Qed.

Lemma trimEnd_toLowerCase (s : string) :
  Str.toLowerCase (Str.trimEnd s) = Str.trimEnd (Str.toLowerCase s).
Proof.
  induction s as [|c r IH]; simpl; [reflexivity|].
  rewrite <- IH, isWhiteSpace_lowerChar.
  destruct (Str.trimEnd r) as [|a b]; simpl.
  - destruct (Str.isWhiteSpace c); reflexivity.
  - reflexivity.
Qed.

Lemma trim_toLowerCase (s : string) :
  Str.toLowerCase (Str.trim s) = Str.trim (Str.toLowerCase s).
Proof.
  unfold Str.trim. now rewrite trimEnd_toLowerCase, trimStart_toLowerCase.
Qed.

Lemma trimStart_startsClean (s : string) : startsClean (Str.trimStart s).
Proof.
  induction s as [|c r IH]; simpl; [exact I|].
  destruct (Str.isWhiteSpace c) eqn:W; [exact IH | exact W].
Qed.

Lemma trimStart_fixed (s : string) : startsClean s -> Str.trimStart s = s.
Proof. destruct s as [|c r]; simpl; [reflexivity|]. now intros ->. Qed.

Lemma trimEnd_startsClean (s : string) :
  startsClean s -> startsClean (Str.trimEnd s).
Proof.
  destruct s as [|c r]; simpl; [trivial|]. intro W.
  destruct (Str.trimEnd r); [rewrite W|]; exact W.
Qed.

Lemma trimEnd_idem (s : string) : Str.trimEnd (Str.trimEnd s) = Str.trimEnd s.
Proof.
  induction s as [|c r IH]; simpl; [reflexivity|].
  destruct (Str.trimEnd r) as [|a b] eqn:E.
  - destruct (Str.isWhiteSpace c) eqn:W; simpl; [reflexivity|]. now rewrite W.
  - change (Str.trimEnd (String c (String a b)))
      with (match Str.trimEnd (String a b) with
            | EmptyString =>
                if Str.isWhiteSpace c then EmptyString else String c EmptyString
            | r' => String c r'
            end).
    now rewrite IH.
Qed.

Lemma trim_idem (s : string) : Str.trim (Str.trim s) = Str.trim s.
Proof.
  unfold Str.trim.
  rewrite (trimStart_fixed (Str.trimEnd (Str.trimStart s))).
  - apply trimEnd_idem.
  - apply trimEnd_startsClean, trimStart_startsClean.
Qed.

Lemma trim_empty : Str.trim "" = "".
Proof. reflexivity. Qed.

(** ** What an emitted payload always satisfies *)

Lemma finiteGe0_Some (q : Q) : (0 <= q)%Q -> finiteGe0 (Some (Finite q)).
Proof. intro H. exists q. now split. Qed.

Lemma finiteGt0_Some (q : Q) : (0 < q)%Q -> finiteGt0 (Some (Finite q)).
Proof. intro H. exists q. now split. Qed.

Lemma basePayload_numbers (p : Props) (n1 n2 : string) (s : State) :
  finiteGe0 (revenue s) -> finiteGt0 (timeTaken s) ->
  revenue s = Some (Payload.revenue (basePayload p n1 n2 s))
  /\ timeTaken s = Some (Payload.timeTaken (basePayload p n1 n2 s)).
Proof.
  intros [qr [Er Hr]] [qt [Et Ht]].
  unfold basePayload, revNum, timeNum; simpl. rewrite Er, Et; simpl.
  apply gtb_zero in Ht. unfold Num.gtb, Num.zero in Ht; simpl in Ht.
  rewrite Ht. now split.
Qed.

Lemma basePayload_completed_iff_done (p : Props) (n1 n2 : string) (s : State) :
  Payload.completedAt (basePayload p n1 n2 s) <> None
  <-> Payload.status (basePayload p n1 n2 s) = Done.
Proof.
  unfold basePayload; simpl.
  destruct (status s) as [[| |]|]; split; intro H; congruence.
Qed.

Lemma basePayload_notes (p : Props) (n1 n2 : string) (s : State) (n : string) :
  Payload.notes (basePayload p n1 n2 s) = Some n -> trimmed n /\ n <> "".
Proof.
  unfold basePayload, trimmed; simpl.
  destruct (Str.truthy (Str.trim (notes s))) eqn:T; [|discriminate].
  intro E. inversion E; subst n. split.
  - apply trim_idem.
  - now apply truthy_true.
Qed.



(** X2.  The text of an emitted payload is trimmed: trimming its title
    again changes nothing, and its notes, when present, are not empty and are
    likewise fixed by trimming. *)
Theorem emitted_payload_text_trimmed
    (p : Props) (n1 n2 : string) (s : State) (v : Payload.t) :
  emits (handleSubmit p n1 n2 s) v ->
  Str.trim (Payload.title v) = Payload.title v
  /\ (forall n, Payload.notes v = Some n -> Str.trim n = n /\ n <> "").
Proof.
  intro H. apply emits_inv in H. destruct H as [-> _]. split.
  - unfold basePayload; simpl. apply trim_idem.
  - intros n E. exact (basePayload_notes p n1 n2 s n E).
Qed.

Lemma emitted_payload_text_trimmed_witness :
  emits (handleSubmit (mkProps true [] None) "t1" "t2" (Sample.filled " a "))
        (basePayload (mkProps true [] None) "t1" "t2" (Sample.filled " a "))
  /\ Str.trim (Payload.title (basePayload (mkProps true [] None) "t1" "t2"
                                          (Sample.filled " a ")))
     = "a".
Proof.
  assert (E : emits (handleSubmit (mkProps true [] None) "t1" "t2" (Sample.filled " a "))
                    (basePayload (mkProps true [] None) "t1" "t2" (Sample.filled " a ")))
    by (left; reflexivity).
  split; [exact E|].
  rewrite (proj1 (emitted_payload_text_trimmed _ _ _ _ _ E)). reflexivity.
Defined.

(** X3.  The submit handler never writes a field cell: title, revenue,
    timeTaken, priority, status and notes are after the run what they were
    before it.  It never clears a message either: the error cell of a field
    that passes its check is left as it was, so a successful submit returns
    the state unchanged. *)
Theorem handleSubmit_frame (p : Props) (n1 n2 : string) (s : State) :
  title (fst (handleSubmit p n1 n2 s)) = title s
  /\ revenue (fst (handleSubmit p n1 n2 s)) = revenue s
  /\ timeTaken (fst (handleSubmit p n1 n2 s)) = timeTaken s
  /\ priority (fst (handleSubmit p n1 n2 s)) = priority s
  /\ status (fst (handleSubmit p n1 n2 s)) = status s
  /\ notes (fst (handleSubmit p n1 n2 s)) = notes s
  /\ (finiteGe0 (revenue s) ->
      revenueError (fst (handleSubmit p n1 n2 s)) = revenueError s)
  /\ (finiteGt0 (timeTaken s) ->
      timeError (fst (handleSubmit p n1 n2 s)) = timeError s)
  /\ (finiteGe0 (revenue s) -> finiteGt0 (timeTaken s) ->
      fst (handleSubmit p n1 n2 s) = s).
Proof.
  unfold handleSubmit.
  repeat split;
    try (destruct (revenueInvalid s), (timeInvalid s); reflexivity).
  - intro H. apply revenueInvalid_false in H. rewrite H.
    destruct (timeInvalid s); reflexivity.
  - intro H. apply timeInvalid_false in H. rewrite H.
    destruct (revenueInvalid s); reflexivity.
  - intros Hr Ht. apply revenueInvalid_false in Hr.
    apply timeInvalid_false in Ht. now rewrite Hr, Ht.
Qed.

Lemma handleSubmit_frame_witness :
  finiteGe0 (revenue (setTimeTaken None (Sample.filled "a")))
  /\ revenueError (fst (handleSubmit (mkProps true [] None) "t1" "t2"
                                     (setTimeTaken None (Sample.filled "a"))))
     = None.
Proof.
  assert (Hr : finiteGe0 (revenue (setTimeTaken None (Sample.filled "a")))).
  { exists (inject_Z 5). split; [reflexivity | discriminate]. }
  split; [exact Hr|].
  destruct (handleSubmit_frame (mkProps true [] None) "t1" "t2"
              (setTimeTaken None (Sample.filled "a")))
    as [_ [_ [_ [_ [_ [_ [H _]]]]]]].
  rewrite (H Hr). reflexivity.
Defined.

(** ** Through the enabled button *)

Lemma canSubmit_parts (p : Props) (s : State) :
  canSubmit p s = true
  <-> Str.trim (title s) <> ""
      /\ duplicateTitle p s = false
      /\ finiteGe0 (revenue s) /\ finiteGt0 (timeTaken s)
      /\ isSome (priority s) = true /\ isSome (status s) = true.
Proof.
  unfold canSubmit.
  rewrite !andb_true_iff, truthy_true, negb_true_iff,
    revenue_ok_iff, time_ok_iff.
  tauto.
Qed.

Lemma ciEq_toLowerCase_l (a b : string) : ciEq (Str.toLowerCase a) b <-> ciEq a b.
Proof. unfold ciEq. now rewrite toLowerCase_idem. Qed.

Lemma not_duplicate_no_other (p : Props) (s : State) (t : string) :
  Str.trim (title s) <> "" -> duplicateTitle p s = false ->
  otherTitle p t -> ~ ciEq (Str.trim (title s)) t.
Proof.
  intros N D O C.
  assert (T : duplicateTitle p s = true).
  { apply duplicateTitle_true_iff. split; [exact N|].
    exists t. split; [exact O | now apply ciEq_toLowerCase_l]. }
  congruence.
Qed.

(** X4.  Whenever submission is enabled, the submit handler does not abort:
    it leaves the state as it is and calls [onSubmit] then [onClose].  The
    payload's title is not empty and differs, without regard to case, from
    every existing title other than that of the task being edited; its
    priority and status are the selected ones, not the defaults; its revenue
    and timeTaken are the numbers in the cells. *)
Theorem canSubmit_then_handleSubmit
    (p : Props) (n1 n2 : string) (s : State) :
  canSubmit p s = true ->
  exists v,
    handleSubmit p n1 n2 s = (s, [onSubmit v; onClose])
    /\ Payload.title v <> ""
    /\ (forall t, otherTitle p t -> ~ ciEq (Payload.title v) t)
    /\ priority s = Some (Payload.priority v)
    /\ status s = Some (Payload.status v)
    /\ revenue s = Some (Payload.revenue v)
    /\ timeTaken s = Some (Payload.timeTaken v).
Proof.
  intro H. apply canSubmit_parts in H.
  destruct H as [N [D [Hr [Ht [Hp Hs]]]]].
  exists (basePayload p n1 n2 s).
  split; [now apply handleSubmit_valid|].
  split; [exact N|].
  split; [intros t O; exact (not_duplicate_no_other p s t N D O)|].
  destruct (basePayload_numbers p n1 n2 s Hr Ht) as [Er Et].
  unfold basePayload in *; simpl in *.
  destruct (priority s); [|discriminate Hp].
  destruct (status s); [|discriminate Hs].
  auto.
Qed.

Lemma canSubmit_then_handleSubmit_witness :
  canSubmit (mkProps true ["Alpha"] None) (Sample.filled " Beta ") = true
  /\ exists v,
       handleSubmit (mkProps true ["Alpha"] None) "t1" "t2" (Sample.filled " Beta ")
       = (Sample.filled " Beta ", [onSubmit v; onClose])
       /\ Payload.title v <> "".
Proof.
  split; [reflexivity|].
  destruct (canSubmit_then_handleSubmit (mkProps true ["Alpha"] None) "t1" "t2"
              (Sample.filled " Beta ") eq_refl) as [v [E [N _]]].
  exists v. split; [exact E | exact N].
Defined.

(** ** The numeric change handlers *)

Lemma finiteGe0_None : ~ finiteGe0 None.
Proof. intros [q [E _]]. discriminate E. Qed.

Lemma finiteGt0_None : ~ finiteGt0 None.
Proof. intros [q [E _]]. discriminate E. Qed.

Lemma revenue_test_false (n : number) :
  negb (Num.isFinite n) || Num.ltb n Num.zero = false <-> finiteGe0 (Some n).
Proof.
  exact (revenueInvalid_false (mkState "" (Some n) None None None "" None None)).
Qed.

Lemma time_test_false (n : number) :
  negb (Num.isFinite n) || Num.leb n Num.zero = false <-> finiteGt0 (Some n).
Proof.
  exact (timeInvalid_false (mkState "" None (Some n) None None "" None None)).
Qed.

Lemma revenueChange_null_iff (Number : string -> number) (v : string) (s : State) :
  revenueError (handleRevenueChange Number v s) = None
  <-> finiteGe0 (revenue (handleRevenueChange Number v s)).
Proof.
  unfold handleRevenueChange.
  destruct (String.eqb v ""); simpl.
  - split; [discriminate|]. intro H. exfalso. exact (finiteGe0_None H).
  - destruct (negb (Num.isFinite (Number v)) || Num.ltb (Number v) Num.zero)
      eqn:E; simpl.
    + split; [discriminate|]. intro H. apply revenue_test_false in H. congruence.
    + split; [|reflexivity]. intros _. now apply revenue_test_false.
Qed.

Lemma timeChange_null_iff (Number : string -> number) (v : string) (s : State) :
  timeError (handleTimeChange Number v s) = None
  <-> finiteGt0 (timeTaken (handleTimeChange Number v s)).
Proof.
  unfold handleTimeChange.
  destruct (String.eqb v ""); simpl.
  - split; [discriminate|]. intro H. exfalso. exact (finiteGt0_None H).
  - destruct (negb (Num.isFinite (Number v)) || Num.leb (Number v) Num.zero)
      eqn:E; simpl.
    + split; [discriminate|]. intro H. apply time_test_false in H. congruence.
    + split; [|reflexivity]. intros _. now apply time_test_false.
Qed.

Lemma revenueChange_value (Number : string -> number) (v : string) (s : State) :
  revenue (handleRevenueChange Number v s)
  = if String.eqb v "" then None else Some (Number v).
Proof.
  unfold handleRevenueChange. destruct (String.eqb v ""); [reflexivity|].
  destruct (negb (Num.isFinite (Number v)) || Num.ltb (Number v) Num.zero);
    reflexivity.
Qed.

Lemma timeChange_value (Number : string -> number) (v : string) (s : State) :
  timeTaken (handleTimeChange Number v s)
  = if String.eqb v "" then None else Some (Number v).
Proof.
  unfold handleTimeChange. destruct (String.eqb v ""); [reflexivity|].
  destruct (negb (Num.isFinite (Number v)) || Num.leb (Number v) Num.zero);
    reflexivity.
Qed.

Lemma timeChange_keeps_revenue (Number : string -> number) (v : string) (s : State) :
  revenue (handleTimeChange Number v s) = revenue s
  /\ revenueError (handleTimeChange Number v s) = revenueError s.
Proof.
  unfold handleTimeChange. destruct (String.eqb v ""); [split; reflexivity|].
  destruct (negb (Num.isFinite (Number v)) || Num.leb (Number v) Num.zero);
    split; reflexivity.
Qed.

(** X5.  After a numeric change handler has run, its field shows no message
    exactly when the cell it wrote passes the test the submit button makes of
    it: [revenueError] is [null] exactly when the revenue cell holds a finite
    number >= 0, and [timeError] is [null] exactly when the timeTaken cell
    holds a finite number > 0. *)
Theorem change_handlers_agree_with_canSubmit
    (Number : string -> number) (v : string) (s : State) :
  (revenueError (handleRevenueChange Number v s) = None
   <-> finiteGe0 (revenue (handleRevenueChange Number v s)))
  /\ (timeError (handleTimeChange Number v s) = None
      <-> finiteGt0 (timeTaken (handleTimeChange Number v s))).
Proof.
  split; [apply revenueChange_null_iff | apply timeChange_null_iff].
Qed.

(** X6.  A numeric change handler writes its own cell and its own message
    and nothing else.  The revenue handler stores [''] for the empty input
    and [Number v] for every other input, also when that number is NaN,
    infinite or negative; the timeTaken handler does the same with its
    cell. *)
Theorem change_handlers_store_and_frame
    (Number : string -> number) (v : string) (s : State) :
  (v = "" -> revenue (handleRevenueChange Number v s) = None
             /\ timeTaken (handleTimeChange Number v s) = None)
  /\ (v <> "" -> revenue (handleRevenueChange Number v s) = Some (Number v)
                 /\ timeTaken (handleTimeChange Number v s) = Some (Number v))
  /\ handleRevenueChange Number v s
     = setRevenueError (revenueError (handleRevenueChange Number v s))
         (setRevenue (revenue (handleRevenueChange Number v s)) s)
  /\ handleTimeChange Number v s
     = setTimeError (timeError (handleTimeChange Number v s))
         (setTimeTaken (timeTaken (handleTimeChange Number v s)) s).
Proof.
  unfold handleRevenueChange, handleTimeChange.
  destruct (String.eqb v "") eqn:E.
  - apply String.eqb_eq in E. repeat split; try reflexivity; congruence.
  - apply String.eqb_neq in E.
    destruct (negb (Num.isFinite (Number v)) || Num.ltb (Number v) Num.zero),
             (negb (Num.isFinite (Number v)) || Num.leb (Number v) Num.zero);
      repeat split; try reflexivity; congruence.
Qed.

Lemma change_handlers_store_and_frame_witness :
  revenue (handleRevenueChange Sample.Number "-4" initialState)
  = Some (Sample.fin (-4))
  /\ timeTaken (handleTimeChange Sample.Number "" (Sample.filled "a")) = None.
Proof.
  split.
  - destruct (change_handlers_store_and_frame Sample.Number "-4" initialState)
      as [_ [H _]].
    destruct H as [H _]; [discriminate|]. rewrite H. reflexivity.
  - destruct (change_handlers_store_and_frame Sample.Number "" (Sample.filled "a"))
      as [H _].
    exact (proj2 (H eq_refl)).
Defined.

(** X7.  Typing and then submitting: if, after the revenue handler and the
    timeTaken handler have run, neither field shows a message, the submit
    handler does not abort, and the payload carries the two numbers as
    [Number] read them. *)
Theorem typed_numbers_reach_payload
    (Number : string -> number) (p : Props) (n1 n2 rv tv : string) (s : State) :
  revenueError (handleTimeChange Number tv (handleRevenueChange Number rv s)) = None ->
  timeError (handleTimeChange Number tv (handleRevenueChange Number rv s)) = None ->
  exists v,
    calls (handleSubmit p n1 n2
             (handleTimeChange Number tv (handleRevenueChange Number rv s)))
    = [onSubmit v; onClose]
    /\ Payload.revenue v = Number rv
    /\ Payload.timeTaken v = Number tv.
Proof.
  intros Hr Ht.
  set (s1 := handleRevenueChange Number rv s) in *.
  set (s2 := handleTimeChange Number tv s1) in *.
  destruct (timeChange_keeps_revenue Number tv s1) as [Kv Ke].
  fold s2 in Kv, Ke.
  assert (Vr : finiteGe0 (revenue s2)).
  { rewrite Kv. apply revenueChange_null_iff. fold s1. congruence. }
  assert (Vt : finiteGt0 (timeTaken s2)) by now apply timeChange_null_iff.
  exists (basePayload p n1 n2 s2).
  split; [now rewrite (handleSubmit_valid p n1 n2 s2 Vr Vt)|].
  destruct (basePayload_numbers p n1 n2 s2 Vr Vt) as [Br Bt].
  assert (Sr : revenue s2 = Some (Number rv)).
  { rewrite Kv. unfold s1. rewrite revenueChange_value.
    destruct (String.eqb rv "") eqn:E; [|reflexivity].
    exfalso. rewrite Kv in Vr. unfold s1 in Vr.
    rewrite revenueChange_value, E in Vr. exact (finiteGe0_None Vr). }
  assert (St : timeTaken s2 = Some (Number tv)).
  { unfold s2. rewrite timeChange_value.
    destruct (String.eqb tv "") eqn:E; [|reflexivity].
    exfalso. unfold s2 in Vt.
    rewrite timeChange_value, E in Vt. exact (finiteGt0_None Vt). }
  split; congruence.
Qed.

Lemma typed_numbers_reach_payload_witness :
  exists v,
    calls (handleSubmit (mkProps true [] None) "t1" "t2"
             (handleTimeChange Sample.Number "3"
                (handleRevenueChange Sample.Number "250" initialState)))
    = [onSubmit v; onClose]
    /\ Payload.revenue v = Sample.fin 250
    /\ Payload.timeTaken v = Sample.fin 3.
Proof.
  exact (typed_numbers_reach_payload Sample.Number (mkProps true [] None)
           "t1" "t2" "250" "3" initialState eq_refl eq_refl).
Defined.

(** ** The duplicate flag *)

Lemma duplicateTitle_title_nonempty (p : Props) (s : State) :
  duplicateTitle p s = true -> Str.truthy (title s) = true.
Proof.
  intro D. apply duplicateTitle_true_iff in D. destruct D as [N _].
  apply truthy_true. intro E. apply N. now rewrite E.
Qed.

(** X8.  The title field is drawn in error exactly when the duplicate flag
    is true: the test [!!title] in front of the flag never changes the
    outcome, since a blank title is never a duplicate.  The field then shows
    the duplicate message, and the submit button is disabled. *)
Theorem titleFieldError_is_duplicateTitle (p : Props) (s : State) :
  titleFieldError p s = duplicateTitle p s
  /\ (titleFieldError p s = true
      <-> titleHelperText p s = "Duplicate title not allowed")
  /\ (titleFieldError p s = true -> submitDisabled p s = true).
Proof.
  assert (E : titleFieldError p s = duplicateTitle p s).
  { unfold titleFieldError. destruct (duplicateTitle p s) eqn:D.
    - now rewrite (duplicateTitle_title_nonempty p s D).
    - apply andb_false_r. }
  split; [exact E|]. rewrite E. unfold titleHelperText, submitDisabled, canSubmit.
  destruct (duplicateTitle p s); split.
  - split; reflexivity.
  - intros _. simpl. now rewrite andb_false_r.
  - split; discriminate.
  - discriminate.
Qed.

Lemma titleFieldError_is_duplicateTitle_witness :
  titleFieldError (mkProps true ["Alpha"; "Beta"] None) (Sample.filled " beta ") = true
  /\ submitDisabled (mkProps true ["Alpha"; "Beta"] None) (Sample.filled " beta ") = true.
Proof.
  split; [reflexivity|].
  apply (proj2 (proj2 (titleFieldError_is_duplicateTitle
                         (mkProps true ["Alpha"; "Beta"] None)
                         (Sample.filled " beta ")))).
  reflexivity.
Defined.

Lemma duplicate_create_iff (o : bool) (l : list string) (s : State) :
  duplicateTitle (mkProps o l None) s = true
  <-> Str.trim (title s) <> ""
      /\ exists t, In t l /\ Str.toLowerCase t = Str.toLowerCase (Str.trim (title s)).
Proof.
  rewrite duplicateTitle_true_iff.
  unfold duplicateAsStated, otherTitle, ciEq; simpl.
  rewrite toLowerCase_idem. split.
  - intros [N [t [[H _] E]]]. split; [exact N|]. exists t. now split.
  - intros [N [t [H E]]]. split; [exact N|]. exists t.
    split; [split; [exact H | discriminate] | now symmetry].
Qed.

Lemma duplicate_edit_iff (o : bool) (l : list string) (i : Task.t) (s : State) :
  duplicateTitle (mkProps o l (Some i)) s = true
  <-> Str.trim (title s) <> ""
      /\ (exists t, In t l
                    /\ Str.toLowerCase t = Str.toLowerCase (Str.trim (title s)))
      /\ Str.toLowerCase (Str.trim (title s)) <> Str.toLowerCase (Task.title i).
Proof.
  rewrite duplicateTitle_true_iff.
  unfold duplicateAsStated, otherTitle, ciEq; simpl.
  rewrite toLowerCase_idem. split.
  - intros [N [t [[H D] E]]]. split; [exact N|]. split.
    + exists t. now split.
    + intro C. apply (D i eq_refl). congruence.
  - intros [N [[t [H E]] D]]. split; [exact N|]. exists t.
    split; [split; [exact H|] | now symmetry].
    intros i' Ei. inversion Ei; subst i'. congruence.
Qed.

(** X9.  Editing flags a title exactly when creating would flag it and the
    trimmed title is not, case aside, the title of the task being edited.
    So an edit never flags more than a creation over the same list, and
    removes from it only the edited task's own title. *)
Theorem duplicateTitle_edit_vs_create
    (o : bool) (l : list string) (i : Task.t) (s : State) :
  duplicateTitle (mkProps o l (Some i)) s
  = duplicateTitle (mkProps o l None) s
    && negb (String.eqb (Str.toLowerCase (Str.trim (title s)))
                        (Str.toLowerCase (Task.title i))).
Proof.
  apply eq_true_iff_eq.
  rewrite andb_true_iff, negb_true_iff, duplicate_edit_iff, duplicate_create_iff.
  rewrite String.eqb_neq. tauto.
Qed.

(** X10.  The flag does not see the case of the typed title, nor the white
    space around it, nor the case of the existing titles: lower-casing the
    title, trimming it, or lower-casing every entry of [existingTitles]
    leaves the flag as it is. *)
Theorem duplicateTitle_case_and_space_blind
    (o : bool) (l : list string) (i : option Task.t) (t : string) (s : State) :
  duplicateTitle (mkProps o l i) (setTitle (Str.toLowerCase t) s)
  = duplicateTitle (mkProps o l i) (setTitle t s)
  /\ duplicateTitle (mkProps o l i) (setTitle (Str.trim t) s)
     = duplicateTitle (mkProps o l i) (setTitle t s)
  /\ duplicateTitle (mkProps o (map Str.toLowerCase l) i) (setTitle t s)
     = duplicateTitle (mkProps o l i) (setTitle t s).
Proof.
  split; [|split].
  - unfold duplicateTitle; simpl.
    now rewrite <- trim_toLowerCase, toLowerCase_idem.
  - unfold duplicateTitle; simpl. now rewrite trim_idem.
  - apply eq_true_iff_eq.
    assert (M : forall c : string,
               (exists u, In u (map Str.toLowerCase l)
                          /\ Str.toLowerCase u = c)
               <-> (exists u, In u l /\ Str.toLowerCase u = c)).
    { intro c. split.
      - intros [u [H E]]. apply in_map_iff in H. destruct H as [w [<- H]].
        exists w. split; [exact H|]. now rewrite toLowerCase_idem in E.
      - intros [u [H E]]. exists (Str.toLowerCase u).
        split; [now apply in_map | now rewrite toLowerCase_idem]. }
    destruct i as [i|].
    + rewrite !duplicate_edit_iff. now rewrite M.
    + rewrite !duplicate_create_iff. now rewrite M.
Qed.

(** X11.  Only the set of existing titles matters: two lists with the same
    members, in whatever order and with whatever repetitions, give the same
    flag; and so does the dialog being open or closed. *)
Theorem duplicateTitle_list_as_set
    (o1 o2 : bool) (l1 l2 : list string) (i : option Task.t) (s : State) :
  (forall t, In t l1 <-> In t l2) ->
  duplicateTitle (mkProps o1 l1 i) s = duplicateTitle (mkProps o2 l2 i) s.
Proof.
  intro H. apply eq_true_iff_eq.
  assert (M : forall c : string,
             (exists u, In u l1 /\ Str.toLowerCase u = c)
             <-> (exists u, In u l2 /\ Str.toLowerCase u = c)).
  { intro c. split; intros [u [Hu E]]; exists u; (split; [now apply H | exact E]). }
  destruct i as [i|].
  - rewrite !duplicate_edit_iff. now rewrite M.
  - rewrite !duplicate_create_iff. now rewrite M.
Qed.

Lemma duplicateTitle_list_as_set_witness :
  duplicateTitle (mkProps true ["Beta"; "Alpha"; "Beta"] None) (Sample.filled "alpha")
  = duplicateTitle (mkProps false ["Alpha"; "Beta"] None) (Sample.filled "alpha").
Proof.
  apply duplicateTitle_list_as_set.
  intro t. simpl. tauto.
Defined.

(** X12.  Once a created task is stored, the draft that produced it is a
    duplicate: if the submit handler emitted a payload with a non-empty title
    and that title is among [existingTitles], the same state in create mode
    has the flag true. *)
Theorem emitted_title_then_duplicate
    (p : Props) (n1 n2 : string) (s : State) (v : Payload.t)
    (o : bool) (l : list string) :
  emits (handleSubmit p n1 n2 s) v ->
  Payload.title v <> "" ->
  In (Payload.title v) l ->
  duplicateTitle (mkProps o l None) s = true.
Proof.
  intros H N I. apply emits_inv in H. destruct H as [-> _].
  unfold basePayload in N, I; simpl in N, I.
  apply duplicate_create_iff. split; [exact N|].
  exists (Str.trim (title s)). now split.
Qed.

Lemma emitted_title_then_duplicate_witness :
  duplicateTitle (mkProps true ["Alpha"; "Gamma"] None) (Sample.filled " Gamma ") = true.
Proof.
  apply (emitted_title_then_duplicate (mkProps true ["Alpha"] None) "t1" "t2"
           (Sample.filled " Gamma ")
           (basePayload (mkProps true ["Alpha"] None) "t1" "t2" (Sample.filled " Gamma "))).
  - left. reflexivity.
  - discriminate.
  - right. left. reflexivity.
Defined.

(** ** Opening the dialog, then acting on it *)

Lemma openEffect_edit_state (p : Props) (i : Task.t) (s : State) :
  open p = true -> initial p = Some i ->
  openEffect p s
  = mkState (Task.title i) (Some (Task.revenue i)) (Some (Task.timeTaken i))
            (Some (Task.priority i)) (Some (Task.status i))
            (match Task.notes i with Some n => n | None => "" end)
            (revenueError s) (timeError s).
Proof. intros Ho Hi. unfold openEffect. now rewrite Ho, Hi. Qed.

Lemma openEffect_create_state (p : Props) (s : State) :
  open p = true -> initial p = None -> openEffect p s = initialState.
Proof. intros Ho Hi. unfold openEffect. now rewrite Ho, Hi. Qed.

Lemma edit_unchanged_not_duplicate (p : Props) (i : Task.t) (s : State) :
  initial p = Some i ->
  ciEq (Str.trim (title s)) (Task.title i) ->
  duplicateTitle p s = false.
Proof.
  intros Hi C. destruct p as [o l i']. simpl in Hi. subst i'.
  destruct (duplicateTitle (mkProps o l (Some i)) s) eqn:D; [|reflexivity].
  apply duplicate_edit_iff in D. destruct D as [_ [_ N]].
  exfalso. exact (N C).
Qed.

Lemma edit_roundtrip_payload (p : Props) (n1 n2 : string) (i : Task.t) (s : State) :
  taskValid i -> open p = true -> initial p = Some i ->
  basePayload p n1 n2 (openEffect p s) = payloadOfTask i.
Proof.
  intros [Vt [[qr [Er Hr]] [[qt [Et Ht]] [Vi [Vn Vc]]]]] Ho Hi.
  rewrite (openEffect_edit_state p i s Ho Hi).
  unfold basePayload, payloadOfTask, revNum, timeNum; simpl. rewrite Hi.
  inversion Er as [Er']. inversion Et as [Et']. rewrite Er', Et'. simpl.
  apply gtb_zero in Ht. unfold Num.gtb, Num.zero in Ht; simpl in Ht. rewrite Ht.
  apply truthy_true in Vi. rewrite Vi.
  unfold trimmed in Vt. rewrite Vt.
  f_equal.
  - destruct (Task.notes i) as [n|] eqn:En.
    + destruct (Vn n eq_refl) as [Tn Nn]. unfold trimmed in Tn. rewrite Tn.
      apply truthy_true in Nn. now rewrite Nn.
    + reflexivity.
  - destruct (Task.status i); destruct (Task.completedAt i) as [c|];
      try reflexivity; exfalso.
    + assert (X : Todo = Done) by (apply Vc; discriminate). discriminate X.
    + assert (X : InProgress = Done) by (apply Vc; discriminate). discriminate X.
    + apply (proj2 Vc eq_refl). reflexivity.
Qed.

Lemma edit_numbers_valid (p : Props) (i : Task.t) (s : State) :
  taskValid i -> open p = true -> initial p = Some i ->
  finiteGe0 (revenue (openEffect p s)) /\ finiteGt0 (timeTaken (openEffect p s)).
Proof.
  intros [_ [Hr [Ht _]]] Ho Hi.
  rewrite (openEffect_edit_state p i s Ho Hi). simpl. now split.
Qed.

Lemma basePayload_taskValid (p : Props) (n1 n2 k : string) (s : State) :
  finiteGe0 (revenue s) -> finiteGt0 (timeTaken s) -> k <> "" ->
  taskValid (taskOfPayload k (basePayload p n1 n2 s)).
Proof.
  intros Hr Ht Hk.
  destruct (basePayload_numbers p n1 n2 s Hr Ht) as [Er Et].
  unfold taskValid, taskOfPayload. cbn [Task.title Task.revenue Task.timeTaken
    Task.id Task.notes Task.completedAt Task.status].
  rewrite <- Er, <- Et.
  split; [unfold trimmed, basePayload; simpl; apply trim_idem|].
  split; [exact Hr|]. split; [exact Ht|]. split; [exact Hk|].
  split; [apply basePayload_notes | apply basePayload_completed_iff_done].
Qed.

(** X13.  Opening the dialog on a task the form could have produced, with a
    title that is not empty, enables submission at once: the task's own
    title is not flagged as a duplicate whatever [existingTitles] holds, and
    every other condition of the button is met. *)
Theorem open_for_edit_enables_submit (p : Props) (i : Task.t) (s : State) :
  open p = true -> initial p = Some i ->
  taskValid i -> Task.title i <> "" ->
  duplicateTitle p (openEffect p s) = false
  /\ canSubmit p (openEffect p s) = true.
Proof.
  intros Ho Hi V N.
  assert (D : duplicateTitle p (openEffect p s) = false).
  { apply (edit_unchanged_not_duplicate p i _ Hi).
    rewrite (openEffect_edit_state p i s Ho Hi). simpl.
    destruct V as [Vt _]. unfold trimmed in Vt. now rewrite Vt. }
  split; [exact D|].
  apply canSubmit_parts.
  destruct (edit_numbers_valid p i s V Ho Hi) as [Hr Ht].
  split; [|split; [exact D | split; [exact Hr | split; [exact Ht|]]]].
  - rewrite (openEffect_edit_state p i s Ho Hi). simpl.
    destruct V as [Vt _]. unfold trimmed in Vt. now rewrite Vt.
  - rewrite (openEffect_edit_state p i s Ho Hi). simpl. now split.
Qed.

Lemma sample_task_valid : taskValid (Sample.task "42" "Old" None).
Proof.
  unfold taskValid, trimmed; simpl.
  split; [reflexivity|].
  split; [apply finiteGe0_Some; discriminate|].
  split; [apply finiteGt0_Some; reflexivity|].
  split; [discriminate|].
  split.
  - intros n E. inversion E. split; [reflexivity | discriminate].
  - split; [intro H; now elim H | discriminate].
Qed.

Lemma open_for_edit_enables_submit_witness :
  canSubmit (mkProps true ["Old"; "Other"] (Some (Sample.task "42" "Old" None)))
            (openEffect (mkProps true ["Old"; "Other"]
                                 (Some (Sample.task "42" "Old" None)))
                        initialState)
  = true.
Proof.
  refine (proj2 (open_for_edit_enables_submit
                   (mkProps true ["Old"; "Other"] (Some (Sample.task "42" "Old" None)))
                   (Sample.task "42" "Old" None) initialState
                   eq_refl eq_refl sample_task_valid _)).
  discriminate.
Defined.

(** X14.  Edit without a change is the identity: opening the dialog on a
    task the form could have produced and submitting at once emits that very
    task, field for field, with its id, followed by [onClose]. *)
Theorem edit_then_submit_roundtrip
    (p : Props) (n1 n2 : string) (i : Task.t) (s : State) :
  open p = true -> initial p = Some i -> taskValid i ->
  calls (handleSubmit p n1 n2 (openEffect p s))
  = [onSubmit (payloadOfTask i); onClose].
Proof.
  intros Ho Hi V.
  destruct (edit_numbers_valid p i s V Ho Hi) as [Hr Ht].
  rewrite (handleSubmit_valid p n1 n2 _ Hr Ht). unfold calls; simpl.
  now rewrite (edit_roundtrip_payload p n1 n2 i s V Ho Hi).
Qed.

Lemma edit_then_submit_roundtrip_witness :
  calls (handleSubmit (mkProps true ["Old"] (Some (Sample.task "42" "Old" None)))
                      "t1" "t2"
                      (openEffect (mkProps true ["Old"]
                                           (Some (Sample.task "42" "Old" None)))
                                  initialState))
  = [onSubmit (payloadOfTask (Sample.task "42" "Old" None)); onClose].
Proof.
  exact (edit_then_submit_roundtrip
           (mkProps true ["Old"] (Some (Sample.task "42" "Old" None)))
           "t1" "t2" (Sample.task "42" "Old" None) initialState
           eq_refl eq_refl sample_task_valid).
Defined.

(** X15.  What the form emits, it takes back: store an emitted payload as a
    task under a non-empty id, open the dialog on that task and submit at
    once; the payload emitted then is the stored task again, with that id. *)
Theorem emitted_payload_reedits_to_itself
    (p p' : Props) (n1 n2 m1 m2 k : string) (s s' : State) (v : Payload.t) :
  emits (handleSubmit p n1 n2 s) v ->
  k <> "" ->
  open p' = true -> initial p' = Some (taskOfPayload k v) ->
  calls (handleSubmit p' m1 m2 (openEffect p' s'))
  = [onSubmit (payloadOfTask (taskOfPayload k v)); onClose].
Proof.
  intros H Hk Ho Hi. apply emits_inv in H. destruct H as [-> [Hr Ht]].
  assert (V := basePayload_taskValid p n1 n2 k s Hr Ht Hk).
  destruct (edit_numbers_valid p' _ s' V Ho Hi) as [Hr' Ht'].
  rewrite (handleSubmit_valid p' m1 m2 _ Hr' Ht'). unfold calls; simpl.
  now rewrite (edit_roundtrip_payload p' m1 m2 _ s' V Ho Hi).
Qed.

Lemma emitted_payload_reedits_to_itself_witness :
  calls (handleSubmit
           (mkProps true ["New"]
              (Some (taskOfPayload "7"
                       (basePayload (mkProps true [] None) "t1" "t2"
                                    (Sample.filled " New ")))))
           "t3" "t4"
           (openEffect
              (mkProps true ["New"]
                 (Some (taskOfPayload "7"
                          (basePayload (mkProps true [] None) "t1" "t2"
                                       (Sample.filled " New ")))))
              initialState))
  = [onSubmit (Payload.mk "New" (Sample.fin 5) (Sample.fin 3) Low Done None
                          "t1" (Some "t2") (Some "7"));
     onClose].
Proof.
  refine (emitted_payload_reedits_to_itself
            (mkProps true [] None)
            (mkProps true ["New"]
               (Some (taskOfPayload "7"
                        (basePayload (mkProps true [] None) "t1" "t2"
                                     (Sample.filled " New ")))))
            "t1" "t2" "t3" "t4" "7"
            (Sample.filled " New ") initialState
            (basePayload (mkProps true [] None) "t1" "t2" (Sample.filled " New "))
            _ _ eq_refl eq_refl).
  - left. reflexivity.
  - discriminate.
Defined.

(** X16.  A dialog opened to create a task starts with submission disabled
    and nothing flagged as a duplicate; and a run of the submit handler on
    that fresh form makes no call. *)
Theorem open_for_create_disables_submit
    (p : Props) (n1 n2 : string) (s : State) :
  open p = true -> initial p = None ->
  submitDisabled p (openEffect p s) = true
  /\ duplicateTitle p (openEffect p s) = false
  /\ calls (handleSubmit p n1 n2 (openEffect p s)) = [].
Proof.
  intros Ho Hi. rewrite (openEffect_create_state p s Ho Hi).
  split; [reflexivity|]. split; [reflexivity|].
  apply handleSubmit_invalid. intros [H _]. exact (finiteGe0_None H).
Qed.

Lemma open_for_create_disables_submit_witness :
  submitDisabled (mkProps true ["a"] None)
                 (openEffect (mkProps true ["a"] None) (Sample.filled "b"))
  = true.
Proof.
  exact (proj1 (open_for_create_disables_submit (mkProps true ["a"] None)
                  "t1" "t2" (Sample.filled "b") eq_refl eq_refl)).
Defined.

(** X17.  The open effect leaves the state alone while the dialog is
    closed, so a draft outlives the closing of the dialog until the next
    opening; and running the effect twice under the same props gives what
    running it once gives. *)
Theorem openEffect_closed_and_idempotent (p : Props) (s : State) :
  (open p = false -> openEffect p s = s)
  /\ openEffect p (openEffect p s) = openEffect p s.
Proof.
  unfold openEffect. split.
  - now intros ->.
  - destruct (open p); simpl; [|reflexivity].
    destruct (initial p); reflexivity.
Qed.

Lemma openEffect_closed_and_idempotent_witness :
  openEffect (mkProps false [] None) (Sample.filled "draft") = Sample.filled "draft".
Proof.
  exact (proj1 (openEffect_closed_and_idempotent (mkProps false [] None)
                  (Sample.filled "draft")) eq_refl).
Defined.

(** ** Every state the component reaches *)

Lemma handleSubmit_errors (p : Props) (n1 n2 : string) (s : State) :
  (revenueError (fst (handleSubmit p n1 n2 s)) = revenueError s
   \/ revenueError (fst (handleSubmit p n1 n2 s))
      = Some "Enter a valid non-negative number")
  /\ (timeError (fst (handleSubmit p n1 n2 s)) = timeError s
      \/ timeError (fst (handleSubmit p n1 n2 s))
         = Some "Enter a positive number (> 0)").
Proof.
  unfold handleSubmit.
  destruct (revenueInvalid s), (timeInvalid s); simpl; auto.
Qed.

(** X18.  In every state the component can reach, from its mounting through
    any sequence of inputs, clicks and effect runs under any props, each
    numeric error cell holds [null] or one of its field's two messages; so a
    numeric field is drawn in error exactly when its cell is not [null]. *)
Theorem reachable_error_messages (Number : string -> number) (s : State) :
  reachable Number s ->
  (revenueError s = None
   \/ revenueError s = Some "Revenue is required"
   \/ revenueError s = Some "Enter a valid non-negative number")
  /\ (timeError s = None
      \/ timeError s = Some "Time taken is required"
      \/ timeError s = Some "Enter a positive number (> 0)")
  /\ (revenueFieldError s = true <-> revenueError s <> None)
  /\ (timeFieldError s = true <-> timeError s <> None).
Proof.
  intro R.
  assert (K : (revenueError s = None
               \/ revenueError s = Some "Revenue is required"
               \/ revenueError s = Some "Enter a valid non-negative number")
              /\ (timeError s = None
                  \/ timeError s = Some "Time taken is required"
                  \/ timeError s = Some "Enter a positive number (> 0)")).
  { induction R as [|p e s R [IHr IHt]].
    - split; left; reflexivity.
    - destruct e as [v|v|v|x|x|v| |n1 n2|]; simpl; try (split; assumption).
      + unfold handleRevenueChange.
        destruct (String.eqb v "");
          [|destruct (negb (Num.isFinite (Number v)) || Num.ltb (Number v) Num.zero)];
          simpl; split; auto.
      + unfold handleTimeChange.
        destruct (String.eqb v "");
          [|destruct (negb (Num.isFinite (Number v)) || Num.leb (Number v) Num.zero)];
          simpl; split; auto.
      + destruct (handleSubmit_errors p n1 n2 s) as [[-> | ->] [-> | ->]]; auto.
      + unfold openEffect. destruct (open p); simpl; [|split; assumption].
        destruct (initial p); simpl; split; auto. }
  destruct K as [Kr Kt]. split; [exact Kr|]. split; [exact Kt|].
  unfold revenueFieldError, timeFieldError.
  split.
  - destruct Kr as [E | [E | E]]; rewrite E; simpl; split; congruence.
  - destruct Kt as [E | [E | E]]; rewrite E; simpl; split; congruence.
Qed.

Lemma reachable_error_messages_witness :
  revenueFieldError
    (fst (dispatch Sample.Number (mkProps true [] None) (RevenueInput "-4")
            (fst (dispatch Sample.Number (mkProps true [] None) EffectRun
                           initialState))))
  = true.
Proof.
  assert (R : reachable Sample.Number
                (fst (dispatch Sample.Number (mkProps true [] None) (RevenueInput "-4")
                        (fst (dispatch Sample.Number (mkProps true [] None) EffectRun
                                       initialState)))))
    by (do 2 apply reachable_step; apply reachable_mount).
  destruct (reachable_error_messages Sample.Number _ R) as [_ [_ [H _]]].
  apply H. discriminate.
Defined.


